(** * The JavaScript executor of golem-ai, embedded in Rocq

    [src/exec/javascript_executor_generator.py] writes two Rust files:
    [exec-javascript/src/lib.rs] (the QuickJS executor, its sessions and the
    exported [run] operation) and [shared/src/lib.rs] (the session manager and
    the resource limiter).  This development embeds that Rust code and
    states the properties of the specification over it.

    Conventions.
    - A Rust [String] is a Rocq [string], one character per byte; a
      [Vec<u8>] is a [list byte]; a [HashMap<String, V>] is a
      [gmap string V].
    - [u64] / [u128] quantities are [N]; where the code casts, the wrap-around
      is written out.
    - An error value ([anyhow::Error], [rquickjs::Error], [FromUtf8Error]) is
      used by the code only through its [Display] text, so it is modelled as
      that text.
    - A [&mut self] method returns the updated receiver.
    - The interpreter (rquickjs), the clock and the UUID source are outside
      the repository: they are the fields of an [Engine], over which every
      theorem is quantified.
    - Time passes, by amounts the [Engine] gives, in the three steps that
      [execute_code] times: the construction of the context, the set-up of
      the console and the evaluation of the program. *)

From Stdlib Require Import NArith ZArith Lia Strings.Byte Ascii String DecimalString.
From stdpp Require Import base option list gmap strings fin_maps.

Local Open Scope string_scope.
Local Open Scope N_scope.

(** ** Rust's [Result] *)

Inductive Result (T E : Type) : Type :=
| Ok (t : T)
| Err (e : E).
Arguments Ok {T E} t.
Arguments Err {T E} e.

(** Display text of an error value. *)
Definition ErrorText : Type := string.

(** [Result::map_err]. *)
Definition map_err {T E F : Type} (f : E -> F) (r : Result T E) : Result T F :=
  match r with
  | Ok t => Ok t
  | Err e => Err (f e)
  end.

(** [Option::ok_or_else]. *)
Definition ok_or_else {T E : Type} (o : option T) (e : unit -> E) : Result T E :=
  match o with
  | Some t => Ok t
  | None => Err (e tt)
  end.

(** Decimal rendering of an integer, as [{}] prints it. *)
Definition show_nat (n : nat) : string := NilZero.string_of_uint (Nat.to_uint n).

(** [needle] occurs in [hay]. *)
Definition contains (needle hay : string) : Prop :=
  exists pre post : string, hay = pre +:+ needle +:+ post.

(** ** [std::time::Duration] *)

Module Duration.

Record t : Type := mk { secs : N; nanos : N }.

Definition NANOS_PER_SEC : N := 1000000000.
Definition NANOS_PER_MILLI : N := 1000000.
Definition MILLIS_PER_SEC : N := 1000.

Definition from_secs (s : N) : t := mk s 0.

Definition from_millis (millis : N) : t :=
  mk (millis / MILLIS_PER_SEC) ((millis mod MILLIS_PER_SEC) * NANOS_PER_MILLI).

Definition from_nanos (n : N) : t :=
  mk (n / NANOS_PER_SEC) (n mod NANOS_PER_SEC).

Definition as_millis (d : t) : N :=
  secs d * MILLIS_PER_SEC + nanos d / NANOS_PER_MILLI.

Definition as_nanos (d : t) : N :=
  secs d * NANOS_PER_SEC + nanos d.

(** [d1 > d2] on durations: lexicographic on (secs, nanos). *)
Definition gtb (d1 d2 : t) : bool :=
  (secs d2 <? secs d1) || ((secs d1 =? secs d2) && (nanos d2 <? nanos d1)).

End Duration.

(** [x as u64] from a wider unsigned integer. *)
Definition as_u64 (x : N) : N := x mod 2 ^ 64.

(** ** [String::from_utf8]

    The validation loop of the Rust standard library
    ([core::str::validations::run_utf8_validation]), which decides what
    [String::from_utf8] accepts and what its error prints. *)

Module Utf8.

Record Utf8Error : Type := mkUtf8Error {
  valid_up_to : nat;
  error_len : option nat
}.

(** [impl Display for Utf8Error]. *)
Definition to_string (e : Utf8Error) : string :=
  match error_len e with
  | Some n =>
      "invalid utf-8 sequence of " +:+ show_nat n +:+ " bytes from index "
        +:+ show_nat (valid_up_to e)
  | None =>
      "incomplete utf-8 byte sequence from index " +:+ show_nat (valid_up_to e)
  end.

Definition in_range (lo hi : N) (b : byte) : bool :=
  (lo <=? Byte.to_N b) && (Byte.to_N b <=? hi).

(** [utf8_char_width]: the length announced by a leading byte, 0 for a
    byte that cannot lead. *)
Definition utf8_char_width (b : byte) : nat :=
  if in_range 0x00 0x7F b then 1
  else if in_range 0xC2 0xDF b then 2
  else if in_range 0xE0 0xEF b then 3
  else if in_range 0xF0 0xF4 b then 4
  else 0.

(** [b as i8 >= -64] is false exactly on continuation bytes. *)
Definition is_continuation (b : byte) : bool := in_range 0x80 0xBF b.

(** Second byte allowed after the leading byte [first] of a 3-byte
    sequence. *)
Definition second_of_3 (first b : byte) : bool :=
  (in_range 0xE0 0xE0 first && in_range 0xA0 0xBF b)
  || (in_range 0xE1 0xEC first && in_range 0x80 0xBF b)
  || (in_range 0xED 0xED first && in_range 0x80 0x9F b)
  || (in_range 0xEE 0xEF first && in_range 0x80 0xBF b).

(** Second byte allowed after the leading byte [first] of a 4-byte
    sequence. *)
Definition second_of_4 (first b : byte) : bool :=
  (in_range 0xF0 0xF0 first && in_range 0x90 0xBF b)
  || (in_range 0xF1 0xF3 first && in_range 0x80 0xBF b)
  || (in_range 0xF4 0xF4 first && in_range 0x80 0x8F b).

(** The loop, started at offset [index] with [v] the bytes not yet
    consumed. *)
Fixpoint run_utf8_validation_from (index : nat) (v : list byte)
  : Result unit Utf8Error :=
  let err (n : option nat) : Result unit Utf8Error := Err (mkUtf8Error index n) in
  match v with
  | [] => Ok tt
  | first :: rest =>
      match utf8_char_width first with
      | 1%nat => run_utf8_validation_from (S index) rest
      | 2%nat =>
          match rest with
          | [] => err None
          | b1 :: rest1 =>
              if is_continuation b1
              then run_utf8_validation_from (2 + index) rest1
              else err (Some 1%nat)
          end
      | 3%nat =>
          match rest with
          | [] => err None
          | b1 :: rest1 =>
              if second_of_3 first b1 then
                match rest1 with
                | [] => err None
                | b2 :: rest2 =>
                    if is_continuation b2
                    then run_utf8_validation_from (3 + index) rest2
                    else err (Some 2%nat)
                end
              else err (Some 1%nat)
          end
      | 4%nat =>
          match rest with
          | [] => err None
          | b1 :: rest1 =>
              if second_of_4 first b1 then
                match rest1 with
                | [] => err None
                | b2 :: rest2 =>
                    if is_continuation b2 then
                      match rest2 with
                      | [] => err None
                      | b3 :: rest3 =>
                          if is_continuation b3
                          then run_utf8_validation_from (4 + index) rest3
                          else err (Some 3%nat)
                      end
                    else err (Some 2%nat)
                end
              else err (Some 1%nat)
          end
      | _ => err (Some 1%nat)
      end
  end.

Definition run_utf8_validation (v : list byte) : Result unit Utf8Error :=
  run_utf8_validation_from 0 v.

(** [String::from_utf8]: the bytes themselves when they validate, the
    validation error otherwise.  Only the error's text is kept. *)
Definition from_utf8 (v : list byte) : Result string ErrorText :=
  match run_utf8_validation v with
  | Ok _ => Ok (string_of_list_byte v)
  | Err e => Err (to_string e)
  end.

End Utf8.

(** ** The boundary types, [golem::exec::types]

    The WIT declarations ([../wit]) are not among the sources.  The fields of
    [File], [StageResult] and [Result_] and the variant [Error::Internal] are
    read off their uses in [lib.rs]; the rest follows the specification. *)

(** Modelled from the spec: the [Language] enumeration is declared in the
    missing WIT file; the specification says only [language: enum], and the
    code never inspects the value. *)
Inductive Language : Type := JavaScript | Python.

Module File.
Record t : Type := mk { name : string; content : list byte }.
End File.

(** Modelled from the spec: the [Limits] record is declared in the missing WIT
    file; [time_ms] is the one field the code reads, [memory_bytes] is the
    second field the specification lists. *)
Module Limits.
Record t : Type := mk { time_ms : option N; memory_bytes : option N }.
End Limits.

Module StageResult.
Record t : Type := mk {
  stdout : string;
  stderr : string;
  exit_code : option Z;
  signal : option Z
}.
End StageResult.

Module Result_.
Record t : Type := mk {
  compile : option StageResult.t;
  run : StageResult.t;
  time_ms : option N;
  memory_bytes : option N
}.
End Result_.

(** Modelled from the spec: the [Error] variant type is declared in the missing
    WIT file; the code builds only [Internal], which the specification calls
    HostInternal, and the other constructors are the error kinds of the
    specification's taxonomy that can be raised to the caller. *)
Inductive Error : Type :=
| ConfigurationError (msg : string)
| NotFound (msg : string)
| DecodeError (msg : string)
| Internal (msg : string)
| Timeout (msg : string).

(** ** The world outside the code: interpreter, clock, UUIDs *)

(** A [rquickjs::Runtime] and a [rquickjs::Context] are known by the order in
    which they were constructed. *)
Record Runtime : Type := mkRuntime { rt_id : nat }.
Record Context : Type := mkContext { ctx_id : nat; ctx_runtime : Runtime }.

(** A JavaScript value, as far as [execute_code] looks at it. *)
Inductive Value : Type :=
| Undefined
| Null
| JsString (s : string)
| Other (debug : string).   (* any other value, with its [{:?}] rendering *)

(** What [ctx.eval(code)] does: return a value or fail after some time, or
    never return. *)
Inductive EvalOutcome : Type :=
| Returned (v : Value) (ns : N)
| Raised (e : ErrorText) (ns : N)
| Diverges.

(** The object operations of [setup_javascript_environment]. *)
Inductive JsOp : Type :=
| GlobalsSet (key : string)
| GlobalsGet (key : string)
| FunctionNew
| ObjectSet (key : string).

Record Engine : Type := mkEngine {
  runtime_new : nat -> Result unit ErrorText;          (* [Runtime::new()] *)
  context_full : Context -> Result unit ErrorText;     (* [Context::full(&rt)] *)
  js_op : Context -> JsOp -> Result unit ErrorText;
  eval : Context -> string -> EvalOutcome;             (* [ctx.eval(code)] *)
  uuid_v4 : nat -> string;                             (* [Uuid::new_v4().to_string()] *)
  context_full_ns : Context -> N;   (* the time a successful [Context::full] takes *)
  setup_ns : Context -> N           (* the time [setup_javascript_environment] takes *)
}.

(** One entry of the log of evaluations: which context, hence which runtime,
    evaluated which source text.  The log is instrumentation; the code does
    not read it. *)
Record Event : Type := Evaluated { ev_context : Context; ev_code : string }.

Record World : Type := mkWorld {
  clock_ns : N;          (* the monotonic clock behind [Instant::now()] *)
  runtimes : nat;        (* runtimes constructed so far *)
  contexts : nat;        (* contexts constructed so far *)
  uuids : nat;           (* UUIDs drawn so far *)
  trace : list Event     (* evaluations started so far, oldest first *)
}.

(** A computation either returns a value in a new world or never returns. *)
Inductive Outcome (A : Type) : Type :=
| Done (a : A) (w : World)
| Hang.
Arguments Done {A} a w.
Arguments Hang {A}.

Definition M (A : Type) : Type := World -> Outcome A.

Definition ret {A : Type} (a : A) : M A := fun w => Done a w.

Definition bind {A B : Type} (m : M A) (k : A -> M B) : M B :=
  fun w =>
    match m w with
    | Done a w' => k a w'
    | Hang => Hang
    end.

Notation "'let!' x ':=' m 'in' k" := (bind m (fun x => k))
  (at level 10, x name, m at level 100, k at level 200).

(** The [?] operator on a [Result] that an effectful call returned. *)
Notation "'try!' x ':=' m 'in' k" :=
  (bind m (fun r => match r with Ok x => k | Err e => ret (Err e) end))
  (at level 10, x name, m at level 100, k at level 200).

Definition Instant : Type := N.

Definition Instant_now : M Instant := fun w => Done (clock_ns w) w.

(** [start.elapsed()]. *)
Definition Instant_elapsed (start : Instant) : M Duration.t :=
  fun w => Done (Duration.from_nanos (clock_ns w - start)) w.

Section WithEngine.

Variable E : Engine.

Definition Runtime_new : M (Result Runtime ErrorText) :=
  fun w =>
    match runtime_new E (runtimes w) with
    | Ok _ =>
        Done (Ok (mkRuntime (runtimes w)))
             (mkWorld (clock_ns w) (S (runtimes w)) (contexts w) (uuids w) (trace w))
    | Err e => Done (Err e) w
    end.

(** [Context::full(&rt)]: the clock advances by the time the construction
    takes; a construction that fails is taken to fail at once. *)
Definition Context_full (rt : Runtime) : M (Result Context ErrorText) :=
  fun w =>
    let ctx := mkContext (contexts w) rt in
    match context_full E ctx with
    | Ok _ =>
        Done (Ok ctx)
             (mkWorld (clock_ns w + context_full_ns E ctx) (runtimes w)
                      (S (contexts w)) (uuids w) (trace w))
    | Err e => Done (Err e) w
    end.

(** A step without other effect than the [ns] nanoseconds it takes. *)
Definition timed {A : Type} (ns : N) (a : A) : M A :=
  fun w =>
    Done a (mkWorld (clock_ns w + ns) (runtimes w) (contexts w) (uuids w) (trace w)).

(** [ctx.eval(code)]: logged when it starts; the clock advances by the time
    the evaluation takes. *)
Definition Ctx_eval (ctx : Context) (code : string) : M (Result Value ErrorText) :=
  fun w =>
    let started (ns : N) :=
      mkWorld (clock_ns w + ns) (runtimes w) (contexts w) (uuids w)
              (trace w ++ [Evaluated ctx code]) in
    match eval E ctx code with
    | Returned v ns => Done (Ok v) (started ns)
    | Raised e ns => Done (Err e) (started ns)
    | Diverges => Hang
    end.

Definition Uuid_new_v4 : M string :=
  fun w =>
    Done (uuid_v4 E (uuids w))
         (mkWorld (clock_ns w) (runtimes w) (contexts w) (S (uuids w)) (trace w)).

End WithEngine.

(** ** [shared/src/lib.rs] *)

Module SessionData.
Record t : Type := mk {
  language : string;
  files : gmap string (list byte);
  working_dir : string;
  created_at : Instant
}.
End SessionData.

Module SessionManager.

Record t : Type := mk { sessions : gmap string SessionData.t }.

Definition new : t := mk ∅.

Definition create_session (self : t) (id : string) (language : string)
  : M (Result unit ErrorText * t) :=
  let! now := Instant_now in
  let session := SessionData.mk language ∅ "/" now in
  ret (Ok tt, mk (<[id := session]> (sessions self))).

Definition get_session (self : t) (id : string) : option SessionData.t :=
  sessions self !! id.

(** The same lookup, handed out as a mutable borrow. *)
Definition get_session_mut (self : t) (id : string) : option SessionData.t :=
  sessions self !! id.

Definition remove_session (self : t) (id : string) : option SessionData.t * t :=
  (sessions self !! id, mk (delete id (sessions self))).

End SessionManager.

Module ResourceLimiter.

Record t : Type := mk { max_memory : option N; max_time : option Duration.t }.

Definition new (max_memory max_time_ms : option N) : t :=
  mk max_memory (Duration.from_millis <$> max_time_ms).

Definition check_timeout (self : t) (start : Instant) : M (Result unit ErrorText) :=
  match max_time self with
  | Some max_time =>
      let! elapsed := Instant_elapsed start in
      if Duration.gtb elapsed max_time
      then ret (Err "Execution timeout")
      else ret (Ok tt)
  | None => ret (Ok tt)
  end.

End ResourceLimiter.

Module ExecutionResult.

Record t : Type := mk {
  stdout : string;
  stderr : string;
  exit_code : Z;
  duration : Duration.t
}.

Definition success (stdout : string) (duration : Duration.t) : t :=
  mk stdout "" 0%Z duration.

Definition error (stderr : string) (duration : Duration.t) : t :=
  mk "" stderr 1%Z duration.

End ExecutionResult.

(** ** [exec-javascript/src/lib.rs] *)

Module JavaScriptExecutor.

Record t : Type := mk {
  runtime : Runtime;
  session_manager : SessionManager.t
}.

Section WithEngine.

Variable E : Engine.

Definition new : M (Result t ErrorText) :=
  try! runtime := Runtime_new E in
  let session_manager := SessionManager.new in
  ret (Ok (mk runtime session_manager)).

(** The four fallible steps that install [console.log]. *)
Definition setup_javascript_environment (self : t) (ctx : Context)
  : Result unit ErrorText :=
  match js_op E ctx (GlobalsSet "console") with
  | Err e => Err e
  | Ok _ =>
      match js_op E ctx (GlobalsGet "console") with
      | Err e => Err e
      | Ok _ =>
          match js_op E ctx FunctionNew with
          | Err e => Err e
          | Ok _ =>
              match js_op E ctx (ObjectSet "log") with
              | Err e => Err e
              | Ok _ => Ok tt
              end
          end
      end
  end.

(** The time budget [execute_code] derives from the limits (its local
    [timeout]). *)
Definition timeout (limits : option Limits.t) : Duration.t :=
  default (Duration.from_secs 5)
          (Duration.from_millis <$> (limits ≫= Limits.time_ms)).

(** Conversion of the value of the program to the text reported as
    stdout. *)
Definition output (result : Value) : string :=
  match result with
  | Undefined => "undefined"
  | Null => "null"
  | JsString s => s
  | Other debug => debug
  end.

(** The closure handed to [context.with]: the set-up, which takes its time
    whether it succeeds or not, then the evaluation. *)
Definition evaluate (self : t) (ctx : Context) (code : string)
  : M (Result string ErrorText) :=
  try! _u := timed (setup_ns E ctx) (setup_javascript_environment self ctx) in
  try! result := Ctx_eval E ctx code in
  ret (Ok (output result)).

Definition execute_code (self : t) (code : string) (limits : option Limits.t)
  : M (Result Result_.t ErrorText) :=
  let! start_time := Instant_now in
  let timeout := timeout limits in
  try! context := Context_full E (runtime self) in
  let! execution_result := evaluate self context code in
  let! elapsed := Instant_elapsed start_time in
  match execution_result with
  | Ok stdout =>
      let stage_result := StageResult.mk stdout "" (Some 0%Z) None in
      ret (Ok (Result_.mk None stage_result
                          (Some (as_u64 (Duration.as_millis elapsed))) None))
  | Err e =>
      let stage_result :=
        StageResult.mk "" ("JavaScript Error: " +:+ e) (Some 1%Z) None in
      ret (Ok (Result_.mk None stage_result
                          (Some (as_u64 (Duration.as_millis elapsed))) None))
  end.

End WithEngine.

End JavaScriptExecutor.

Module ExecutionSession.

Record t : Type := mk {
  id : string;
  language : Language;
  files : gmap string (list byte);
  working_dir : string;
  executor : JavaScriptExecutor.t
}.

Section WithEngine.

Variable E : Engine.

Definition new (language : Language) : M (Result t ErrorText) :=
  try! executor := JavaScriptExecutor.new E in
  let! id := Uuid_new_v4 E in
  ret (Ok (mk id language ∅ "/" executor)).

Definition upload_file (self : t) (file : File.t) : Result unit ErrorText * t :=
  (Ok tt,
   mk (id self) (language self)
      (<[File.name file := File.content file]> (files self))
      (working_dir self) (executor self)).

Definition run_code (self : t) (entrypoint : string) (args : list string)
           (limits : option Limits.t) : M (Result Result_.t ErrorText) :=
  match ok_or_else (files self !! entrypoint)
                   (fun _ => "File not found: " +:+ entrypoint) with
  | Err e => ret (Err e)
  | Ok code =>
      match Utf8.from_utf8 code with
      | Err e => ret (Err e)
      | Ok code_str =>
          JavaScriptExecutor.execute_code E (executor self) code_str limits
      end
  end.

End WithEngine.

End ExecutionSession.

(** [impl golem::exec::executor::Guest for JavaScriptExecutor]. *)
Module Guest.

Section WithEngine.

Variable E : Engine.

Definition run (lang : Language) (files : list File.t) (stdin : option string)
           (args : list string) (env : list (string * string))
           (constraints : option Limits.t) : M (Result Result_.t Error) :=
  let! executor := JavaScriptExecutor.new E in
  match map_err Internal executor with
  | Err e => ret (Err e)
  | Ok executor =>
      match head files with
      | Some main_file =>
          match map_err Internal (Utf8.from_utf8 (File.content main_file)) with
          | Err e => ret (Err e)
          | Ok code =>
              let! r := JavaScriptExecutor.execute_code E executor code constraints in
              ret (map_err Internal r)
          end
      | None => ret (Err (Internal "No files provided"))
      end
  end.

End WithEngine.

End Guest.

(** ** A stand-in interpreter

    The theorems below hold for every [Engine].  To run them on concrete
    inputs they are instantiated with this small engine: construction and set-up
    always succeed and take no time, [while(true){}] never returns, [throw X]
    raises [X] after 2 ms, the empty program yields [undefined], and any other
    text evaluates to itself after 1.5 ms. *)

Definition demo_eval (ctx : Context) (code : string) : EvalOutcome :=
  if String.eqb code "while(true){}" then Diverges
  else if String.prefix "throw " code
       then Raised (String.substring 6 (String.length code - 6) code) 2000000
  else if String.eqb code "" then Returned Undefined 0
  else Returned (JsString code) 1500000.

Definition demo : Engine :=
  mkEngine (fun _ => Ok tt) (fun _ => Ok tt) (fun _ _ => Ok tt) demo_eval
           (fun n => "session-" +:+ show_nat n) (fun _ => 0) (fun _ => 0).

(** The world before anything ran. *)
Definition w0 : World := mkWorld 0 0 0 0 [].

Definition js (name : string) (source : string) : File.t :=
  File.mk name (list_byte_of_string source).

(** The same engine, except that installing [console.log] fails at its last
    step, 3 ms into the set-up. *)
Definition demo_no_console : Engine :=
  mkEngine (fun _ => Ok tt) (fun _ => Ok tt)
           (fun _ op => match op with
                        | ObjectSet _ => Err "out of memory"
                        | _ => Ok tt
                        end)
           demo_eval
           (fun n => "session-" +:+ show_nat n) (fun _ => 0) (fun _ => 3000000).

(** An engine on which everything is slow: constructing the context number
    [n] takes 20 ms and [n] times 20 ms more, the set-up 1 ms, and every
    program evaluates to itself after 6000 ms. *)
Definition demo_slow : Engine :=
  mkEngine (fun _ => Ok tt) (fun _ => Ok tt) (fun _ _ => Ok tt)
           (fun _ code => Returned (JsString code) 6000000000)
           (fun n => "session-" +:+ show_nat n)
           (fun c => 20000000 * N.of_nat (S (ctx_id c))) (fun _ => 1000000).



(** ** Vocabulary of the statements *)

(** Milliseconds reported for an evaluation that took [ns] nanoseconds. *)
Definition reported_ms (ns : N) : N :=
  as_u64 (Duration.as_millis (Duration.from_nanos ns)).

Definition success_result (stdout : string) (ns : N) : Result_.t :=
  Result_.mk None (StageResult.mk stdout "" (Some 0%Z) None)
             (Some (reported_ms ns)) None.

Definition fault_result (e : ErrorText) (ns : N) : Result_.t :=
  Result_.mk None (StageResult.mk "" ("JavaScript Error: " +:+ e) (Some 1%Z) None)
             (Some (reported_ms ns)) None.

(** The world once a context was made for the call. *)
Definition with_context (w : World) : World :=
  mkWorld (clock_ns w) (runtimes w) (S (contexts w)) (uuids w) (trace w).

(** The world [ns] nanoseconds later. *)
Definition later (ns : N) (w : World) : World :=
  mkWorld (clock_ns w + ns) (runtimes w) (contexts w) (uuids w) (trace w).

(** The world once an evaluation that took [ns] returned. *)
Definition evaluated (w : World) (ctx : Context) (code : string) (ns : N) : World :=
  mkWorld (clock_ns w + ns) (runtimes w) (S (contexts w)) (uuids w)
          (trace w ++ [Evaluated ctx code]).

(** The world once the executor of a stateless call was built. *)
Definition with_runtime (w : World) : World :=
  mkWorld (clock_ns w) (S (runtimes w)) (contexts w) (uuids w) (trace w).

(** Every evaluation logged so far ran in a context and on a runtime that
    were counted when they were constructed. *)
Definition known (w : World) : Prop :=
  Forall (fun ev : Event =>
            (ctx_id (ev_context ev) < contexts w)%nat
            /\ (rt_id (ctx_runtime (ev_context ev)) < runtimes w)%nat)
         (trace w).

(** The evaluations a call added to the log. *)
Definition added (w w' : World) : list Event :=
  drop (length (trace w)) (trace w').




(** * Properties *)

(** ** The model at work *)

Example from_utf8_ascii :
  Utf8.from_utf8 (list_byte_of_string "1+1") = Ok "1+1".
Proof. reflexivity. Qed.

Example from_utf8_ff :
  Utf8.from_utf8 [x63; xff] = Err "invalid utf-8 sequence of 1 bytes from index 1".
Proof. reflexivity. Qed.

Example from_utf8_truncated :
  Utf8.from_utf8 [xe2; x82] = Err "incomplete utf-8 byte sequence from index 0".
Proof. reflexivity. Qed.

Example run_value :
  Guest.run demo JavaScript [js "main.js" "40+2"] None [] [] None w0
  = Done (Ok (Result_.mk None (StageResult.mk "40+2" "" (Some 0%Z) None) (Some 1) None))
         (mkWorld 1500000 1 1 0
                  [Evaluated (mkContext 0 (mkRuntime 0)) "40+2"]).
Proof. reflexivity. Qed.

Example run_throw :
  Guest.run demo JavaScript [js "main.js" "throw boom"] None [] [] None w0
  = Done (Ok (Result_.mk None
                (StageResult.mk "" "JavaScript Error: boom" (Some 1%Z) None)
                (Some 2) None))
         (mkWorld 2000000 1 1 0
                  [Evaluated (mkContext 0 (mkRuntime 0)) "throw boom"]).
Proof. reflexivity. Qed.

Example run_setup_failure_time :
  Guest.run demo_no_console JavaScript [js "main.js" "40+2"] None [] [] None w0
  = Done (Ok (fault_result "out of memory" 3000000))
         (with_context (later 3000000 (with_runtime w0))).
Proof. reflexivity. Qed.

Example run_slow_context_time :
  Guest.run demo_slow JavaScript [js "main.js" "40+2"] None [] [] None w0
  = Done (Ok (Result_.mk None (StageResult.mk "40+2" "" (Some 0%Z) None) (Some 6021) None))
         (mkWorld 6021000000 1 1 0 [Evaluated (mkContext 0 (mkRuntime 0)) "40+2"]).
Proof. reflexivity. Qed.

Example run_no_files :
  Guest.run demo JavaScript [] None [] [] None w0
  = Done (Err (Internal "No files provided")) (mkWorld 0 1 0 0 []).
Proof. reflexivity. Qed.

(** ** Decoding *)

(** Bytes below 128 always decode, to themselves. *)
Lemma run_utf8_validation_ascii (v : list byte) (index : nat) :
  Forall (fun b : byte => Byte.to_N b <= 0x7F) v ->
  Utf8.run_utf8_validation_from index v = Ok tt.
Proof.
  intros Hv. revert index.
  induction Hv as [|b v Hb _ IH]; intros index; [reflexivity|].
  cbn [Utf8.run_utf8_validation_from].
  assert (Utf8.utf8_char_width b = 1%nat) as ->; [|apply IH].
  unfold Utf8.utf8_char_width, Utf8.in_range.
  replace (Byte.to_N b <=? 0x7F) with true by (symmetry; by apply N.leb_le).
  by rewrite (proj2 (N.leb_le 0 _) (N.le_0_l _)).
Qed.

Lemma from_utf8_ascii_ok (v : list byte) :
  Forall (fun b : byte => Byte.to_N b <= 0x7F) v ->
  Utf8.from_utf8 v = Ok (string_of_list_byte v).
Proof.
  intros Hv. unfold Utf8.from_utf8, Utf8.run_utf8_validation.
  by rewrite run_utf8_validation_ascii.
Qed.

(** A validation error never points past the input. *)
Lemma run_utf8_validation_error_index (v : list byte) (index : nat) (e : Utf8.Utf8Error) :
  Utf8.run_utf8_validation_from index v = Err e ->
  (index <= Utf8.valid_up_to e < index + length v)%nat.
Proof.
  assert (forall (n : nat) (v : list byte) (index : nat),
             (length v <= n)%nat ->
             Utf8.run_utf8_validation_from index v = Err e ->
             (index <= Utf8.valid_up_to e < index + length v)%nat) as Hgen;
    [|by apply (Hgen (length v))].
  clear v index. intros n. induction n as [|n IH]; intros v index Hlen.
  { destruct v; [discriminate | cbn in Hlen; lia]. }
  destruct v as [|first rest]; [discriminate|].
  cbn [Utf8.run_utf8_validation_from length] in *.
  destruct (Utf8.utf8_char_width first) as [|[|[|[|[|k]]]]].
  - intros [= <-]; cbn; lia.
  - intros H. apply IH in H; cbn in *; lia.
  - destruct rest as [|b1 rest1]; [intros [= <-]; cbn; lia|].
    destruct (Utf8.is_continuation b1); [|intros [= <-]; cbn; lia].
    intros H. apply IH in H; cbn in *; lia.
  - destruct rest as [|b1 rest1]; [intros [= <-]; cbn; lia|].
    destruct (Utf8.second_of_3 first b1); [|intros [= <-]; cbn; lia].
    destruct rest1 as [|b2 rest2]; [intros [= <-]; cbn; lia|].
    destruct (Utf8.is_continuation b2); [|intros [= <-]; cbn; lia].
    intros H. apply IH in H; cbn in *; lia.
  - destruct rest as [|b1 rest1]; [intros [= <-]; cbn; lia|].
    destruct (Utf8.second_of_4 first b1); [|intros [= <-]; cbn; lia].
    destruct rest1 as [|b2 rest2]; [intros [= <-]; cbn; lia|].
    destruct (Utf8.is_continuation b2); [|intros [= <-]; cbn; lia].
    destruct rest2 as [|b3 rest3]; [intros [= <-]; cbn; lia|].
    destruct (Utf8.is_continuation b3); [|intros [= <-]; cbn; lia].
    intros H. apply IH in H; cbn in *; lia.
  - intros [= <-]; cbn; lia.
Qed.

(** ** The resource limiter *)

(** A limiter built without [time_ms] has no budget at all: its check
    always passes. *)
Lemma check_timeout_without_budget (max_memory : option N) (start : Instant) (w : World) :
  ResourceLimiter.check_timeout (ResourceLimiter.new max_memory None) start w
  = Done (Ok tt) w.
Proof. reflexivity. Qed.

(** ** Strings and durations *)

Lemma append_empty_r (s : string) : s +:+ "" = s.
Proof.
  induction s as [|c s IH]; [reflexivity|].
  change (String c (s +:+ "") = String c s). by rewrite IH.
Qed.

Lemma contains_suffix (pre s : string) : contains s (pre +:+ s).
Proof. exists pre, "". by rewrite append_empty_r. Qed.



Lemma as_millis_from_secs (s : N) :
  Duration.as_millis (Duration.from_secs s) = s * 1000.
Proof.
  unfold Duration.as_millis, Duration.from_secs, Duration.MILLIS_PER_SEC.
  cbn [Duration.secs Duration.nanos].
  change (0 / Duration.NANOS_PER_MILLI) with 0. lia.
Qed.

(** A budget given in milliseconds is kept exactly. *)
Lemma as_millis_from_millis (ms : N) :
  Duration.as_millis (Duration.from_millis ms) = ms.
Proof.
  unfold Duration.as_millis, Duration.from_millis.
  cbn [Duration.secs Duration.nanos].
  unfold Duration.MILLIS_PER_SEC, Duration.NANOS_PER_MILLI.
  rewrite N.div_mul by discriminate.
  pose proof (N.div_mod ms 1000) as H. lia.
Qed.

(** Whole milliseconds of a number of nanoseconds. *)
Lemma as_millis_from_nanos (ns : N) :
  Duration.as_millis (Duration.from_nanos ns) = ns / 1000000.
Proof.
  unfold Duration.as_millis, Duration.from_nanos.
  cbn [Duration.secs Duration.nanos].
  unfold Duration.MILLIS_PER_SEC, Duration.NANOS_PER_MILLI, Duration.NANOS_PER_SEC.
  pose proof (N.div_mod ns 1000000000) as H1.
  pose proof (N.mod_lt ns 1000000000) as H2.
  pose proof (N.div_mod (ns mod 1000000000) 1000000) as H3.
  pose proof (N.mod_lt (ns mod 1000000000) 1000000) as H4.
  apply (N.div_unique _ _ _ ((ns mod 1000000000) mod 1000000)); lia.
Qed.

Lemma elapsed_since_start (start ns : N) :
  Duration.from_nanos (start + ns - start) = Duration.from_nanos ns.
Proof. f_equal. lia. Qed.

(** ** What [execute_code] does, case by case *)

Section Executor.

Variable E : Engine.

Lemma execute_code_cases (self : JavaScriptExecutor.t) (code : string)
      (limits : option Limits.t) (w : World) :
  JavaScriptExecutor.execute_code E self code limits w =
  let ctx := mkContext (contexts w) (JavaScriptExecutor.runtime self) in
  let t := context_full_ns E ctx + setup_ns E ctx in
  match context_full E ctx with
  | Err e => Done (Err e) w
  | Ok _ =>
      match JavaScriptExecutor.setup_javascript_environment E self ctx with
      | Err e => Done (Ok (fault_result e t)) (with_context (later t w))
      | Ok _ =>
          match eval E ctx code with
          | Returned v ns =>
              Done (Ok (success_result (JavaScriptExecutor.output v) (t + ns)))
                   (evaluated w ctx code (t + ns))
          | Raised e ns =>
              Done (Ok (fault_result e (t + ns))) (evaluated w ctx code (t + ns))
          | Diverges => Hang
          end
      end
  end.
Proof.
  unfold JavaScriptExecutor.execute_code, JavaScriptExecutor.evaluate, bind, ret,
    Instant_now, Instant_elapsed, Context_full, Ctx_eval, timed; simpl.
  destruct (context_full E _) as [[]|e]; [|reflexivity]; simpl.
  destruct (JavaScriptExecutor.setup_javascript_environment E self _) as [[]|e]; simpl.
  - destruct (eval E _ code) as [v ns|e ns|]; simpl; [| |reflexivity];
      unfold success_result, fault_result, reported_ms, evaluated;
      rewrite <- !N.add_assoc, elapsed_since_start; reflexivity.
  - unfold fault_result, reported_ms, with_context, later; cbn.
    rewrite <- !N.add_assoc, elapsed_since_start; reflexivity.
Qed.

(** The limits never reach the evaluation: the budget derived from them is
    not used. *)
Lemma execute_code_limits_irrelevant (self : JavaScriptExecutor.t) (code : string)
      (l1 l2 : option Limits.t) (w : World) :
  JavaScriptExecutor.execute_code E self code l1 w
  = JavaScriptExecutor.execute_code E self code l2 w.
Proof. by rewrite !execute_code_cases. Qed.

Lemma run_cases (lang : Language) (files : list File.t) (stdin : option string)
      (args : list string) (env : list (string * string))
      (constraints : option Limits.t) (w : World) :
  Guest.run E lang files stdin args env constraints w =
  match runtime_new E (runtimes w) with
  | Err e => Done (Err (Internal e)) w
  | Ok _ =>
      match files with
      | [] => Done (Err (Internal "No files provided")) (with_runtime w)
      | main_file :: _ =>
          match Utf8.from_utf8 (File.content main_file) with
          | Err e => Done (Err (Internal e)) (with_runtime w)
          | Ok code =>
              match JavaScriptExecutor.execute_code E
                      (JavaScriptExecutor.mk (mkRuntime (runtimes w)) SessionManager.new)
                      code constraints (with_runtime w) with
              | Done r w' => Done (map_err Internal r) w'
              | Hang => Hang
              end
          end
      end
  end.
Proof.
  unfold Guest.run, JavaScriptExecutor.new, bind, ret, Runtime_new; simpl.
  destruct (runtime_new E (runtimes w)) as [[]|e]; simpl; [|reflexivity].
  destruct files as [|main_file rest]; simpl; [reflexivity|].
  destruct (Utf8.from_utf8 (File.content main_file)) as [code|e]; reflexivity.
Qed.

End Executor.

(** ** Faults of the program *)

(** When the stateless [run] gets as far as evaluating the entry file (the
    executor and the context were constructed, the file decoded, the console
    was installed) and the evaluation fails with an interpreter error whose
    text is [e], [run] returns [Ok]: the run stage has exit code 1, hence not
    0, and its stderr is ["JavaScript Error: "] followed by [e]. *)
Theorem run_reports_program_fault
        (E : Engine) (lang : Language) (main_file : File.t) (rest : list File.t)
        (stdin : option string) (args : list string) (env : list (string * string))
        (constraints : option Limits.t) (w : World)
        (code : string) (e : ErrorText) (ns : N) :
  let self := JavaScriptExecutor.mk (mkRuntime (runtimes w)) SessionManager.new in
  let ctx := mkContext (contexts w) (mkRuntime (runtimes w)) in
  runtime_new E (runtimes w) = Ok tt ->
  Utf8.from_utf8 (File.content main_file) = Ok code ->
  context_full E ctx = Ok tt ->
  JavaScriptExecutor.setup_javascript_environment E self ctx = Ok tt ->
  eval E ctx code = Raised e ns ->
  exists (res : Result_.t) (w' : World),
    Guest.run E lang (main_file :: rest) stdin args env constraints w = Done (Ok res) w'
    /\ StageResult.exit_code (Result_.run res) = Some 1%Z
    /\ StageResult.exit_code (Result_.run res) <> Some 0%Z
    /\ StageResult.stderr (Result_.run res) = "JavaScript Error: " +:+ e
    /\ contains e (StageResult.stderr (Result_.run res)).
Proof.
  intros self ctx Hrt Hutf Hctx Hsetup Heval.
  rewrite run_cases, Hrt, Hutf, execute_code_cases.
  cbn [contexts with_runtime JavaScriptExecutor.runtime].
  fold ctx. fold self. rewrite Hctx, Hsetup, Heval.
  eexists _, _. split; [reflexivity|].
  repeat split; [discriminate | apply contains_suffix].
Qed.

Lemma run_reports_program_fault_witness :
  (runtime_new demo 0 = Ok tt
   /\ Utf8.from_utf8 (File.content (js "main.js" "throw boom")) = Ok "throw boom"
   /\ context_full demo (mkContext 0 (mkRuntime 0)) = Ok tt
   /\ eval demo (mkContext 0 (mkRuntime 0)) "throw boom" = Raised "boom" 2000000)
  /\ exists (res : Result_.t) (w' : World),
      Guest.run demo JavaScript [js "main.js" "throw boom"] None [] [] None w0
      = Done (Ok res) w'
      /\ StageResult.exit_code (Result_.run res) = Some 1%Z
      /\ StageResult.exit_code (Result_.run res) <> Some 0%Z
      /\ StageResult.stderr (Result_.run res) = "JavaScript Error: " +:+ "boom"
      /\ contains "boom" (StageResult.stderr (Result_.run res)).
Proof.
  split; [repeat split; reflexivity|].
  apply (run_reports_program_fault demo JavaScript (js "main.js" "throw boom") []
           None [] [] None w0 "throw boom" "boom" 2000000); reflexivity.
Defined.



(** ** The time budget *)

(** When the limits are absent, or present without [time_ms], the budget
    that [execute_code] derives is [Duration::from_secs(5)], which is exactly
    5000 ms. *)
Theorem default_time_budget (limits : option Limits.t) :
  limits = None \/ (exists l : Limits.t, limits = Some l /\ Limits.time_ms l = None) ->
  JavaScriptExecutor.timeout limits = Duration.from_secs 5
  /\ Duration.as_millis (JavaScriptExecutor.timeout limits) = 5000.
Proof.
  intros [-> | (l & -> & Hl)]; unfold JavaScriptExecutor.timeout; simpl;
    rewrite ?Hl; simpl; split; reflexivity.
Qed.

Lemma default_time_budget_witness :
  Limits.time_ms (Limits.mk None (Some 1024)) = None
  /\ JavaScriptExecutor.timeout (Some (Limits.mk None (Some 1024))) = Duration.from_secs 5
  /\ Duration.as_millis (JavaScriptExecutor.timeout (Some (Limits.mk None (Some 1024))))
     = 5000.
Proof.
  split; [reflexivity|].
  apply (default_time_budget (Some (Limits.mk None (Some 1024)))).
  right. exists (Limits.mk None (Some 1024)). split; reflexivity.
Defined.

(** A budget that is given is the one derived. *)
Lemma given_time_budget (T : N) (mem : option N) :
  Duration.as_millis (JavaScriptExecutor.timeout (Some (Limits.mk (Some T) mem))) = T.
Proof. unfold JavaScriptExecutor.timeout; simpl. apply as_millis_from_millis. Qed.

(** C4.  The default budget of 5000 ms is derived and then not used: with
    the limits absent, or present without [time_ms], a program whose
    evaluation returns after more than 5000 ms is not stopped; [run] returns
    its value as an ordinary success, exit code 0 and empty stderr, and
    reports the whole time that passed. *)
Theorem run_default_budget_not_enforced
        (E : Engine) (lang : Language) (main_file : File.t) (rest : list File.t)
        (stdin : option string) (args : list string) (env : list (string * string))
        (limits : option Limits.t) (w : World) (code : string) (v : Value) (ns : N) :
  let self := JavaScriptExecutor.mk (mkRuntime (runtimes w)) SessionManager.new in
  let ctx := mkContext (contexts w) (mkRuntime (runtimes w)) in
  limits = None \/ (exists l : Limits.t, limits = Some l /\ Limits.time_ms l = None) ->
  runtime_new E (runtimes w) = Ok tt ->
  Utf8.from_utf8 (File.content main_file) = Ok code ->
  context_full E ctx = Ok tt ->
  JavaScriptExecutor.setup_javascript_environment E self ctx = Ok tt ->
  eval E ctx code = Returned v ns ->
  5000 * 1000000 < ns ->
  Duration.as_millis (JavaScriptExecutor.timeout limits) = 5000
  /\ exists (res : Result_.t) (w' : World),
      Guest.run E lang (main_file :: rest) stdin args env limits w = Done (Ok res) w'
      /\ StageResult.exit_code (Result_.run res) = Some 0%Z
      /\ StageResult.stderr (Result_.run res) = ""
      /\ StageResult.stdout (Result_.run res) = JavaScriptExecutor.output v
      /\ Result_.time_ms res
         = Some (as_u64 ((context_full_ns E ctx + setup_ns E ctx + ns) / 1000000))
      /\ 5000 <= (context_full_ns E ctx + setup_ns E ctx + ns) / 1000000.
Proof.
  intros self ctx Hlimits Hrt Hutf Hctx Hsetup Heval Hlong. split.
  { destruct Hlimits as [-> | (l & -> & Hl)]; unfold JavaScriptExecutor.timeout;
      simpl; rewrite ?Hl; reflexivity. }
  rewrite run_cases, Hrt, Hutf, execute_code_cases.
  cbn [contexts with_runtime JavaScriptExecutor.runtime].
  fold ctx. fold self. rewrite Hctx, Hsetup, Heval.
  eexists _, _. split; [reflexivity|].
  split; [reflexivity|]. split; [reflexivity|]. split; [reflexivity|].
  split; [cbn; unfold reported_ms; by rewrite as_millis_from_nanos|].
  apply N.div_le_lower_bound; [discriminate | lia].
Qed.

Lemma run_default_budget_not_enforced_witness :
  let spin := "for (const t = Date.now(); Date.now() - t < 6000;) {}" in
  ((None : option Limits.t) = None
   /\ runtime_new demo_slow 0 = Ok tt
   /\ Utf8.from_utf8 (File.content (js "main.js" spin)) = Ok spin
   /\ context_full demo_slow (mkContext 0 (mkRuntime 0)) = Ok tt
   /\ eval demo_slow (mkContext 0 (mkRuntime 0)) spin = Returned (JsString spin) 6000000000
   /\ 5000 * 1000000 < 6000000000)
  /\ Duration.as_millis (JavaScriptExecutor.timeout None) = 5000
  /\ exists (res : Result_.t) (w' : World),
      Guest.run demo_slow JavaScript [js "main.js" spin] None [] [] None w0
      = Done (Ok res) w'
      /\ StageResult.exit_code (Result_.run res) = Some 0%Z
      /\ StageResult.stderr (Result_.run res) = ""
      /\ StageResult.stdout (Result_.run res) = spin
      /\ Result_.time_ms res = Some 6021
      /\ 5000 <= 6021.
Proof.
  intros spin. split; [repeat split; reflexivity|].
  apply (run_default_budget_not_enforced demo_slow JavaScript (js "main.js" spin) []
           None [] [] None w0 spin (JsString spin) 6000000000);
    [by left | reflexivity..].
Defined.

(** C2.  The budget is derived and then not used: when the evaluation of the
    entry file never returns, [run] never returns either, whatever [time_ms]
    the limits carry. *)
Theorem run_hangs_with_program
        (E : Engine) (lang : Language) (main_file : File.t) (rest : list File.t)
        (stdin : option string) (args : list string) (env : list (string * string))
        (T : N) (mem : option N) (w : World) (code : string) :
  let self := JavaScriptExecutor.mk (mkRuntime (runtimes w)) SessionManager.new in
  let ctx := mkContext (contexts w) (mkRuntime (runtimes w)) in
  runtime_new E (runtimes w) = Ok tt ->
  Utf8.from_utf8 (File.content main_file) = Ok code ->
  context_full E ctx = Ok tt ->
  JavaScriptExecutor.setup_javascript_environment E self ctx = Ok tt ->
  eval E ctx code = Diverges ->
  Guest.run E lang (main_file :: rest) stdin args env (Some (Limits.mk (Some T) mem)) w
  = Hang.
Proof.
  intros self ctx Hrt Hutf Hctx Hsetup Heval.
  rewrite run_cases, Hrt, Hutf, execute_code_cases.
  cbn [contexts with_runtime JavaScriptExecutor.runtime].
  fold ctx. fold self. by rewrite Hctx, Hsetup, Heval.
Qed.

Lemma run_hangs_with_program_witness :
  (runtime_new demo 0 = Ok tt
   /\ Utf8.from_utf8 (File.content (js "main.js" "while(true){}")) = Ok "while(true){}"
   /\ context_full demo (mkContext 0 (mkRuntime 0)) = Ok tt
   /\ eval demo (mkContext 0 (mkRuntime 0)) "while(true){}" = Diverges)
  /\ Guest.run demo JavaScript [js "main.js" "while(true){}"] None [] []
               (Some (Limits.mk (Some 50) None)) w0
     = Hang.
Proof.
  split; [repeat split; reflexivity|].
  apply (run_hangs_with_program demo JavaScript (js "main.js" "while(true){}") []
           None [] [] 50 None w0 "while(true){}"); reflexivity.
Defined.

(** An evaluation that returns is reported as an ordinary success with the
    time it took, however that time compares with the budget. *)
Lemma run_overrun_not_marked
      (E : Engine) (lang : Language) (main_file : File.t) (rest : list File.t)
      (stdin : option string) (args : list string) (env : list (string * string))
      (T : N) (mem : option N) (w : World) (code : string) (v : Value) (ns : N) :
  let self := JavaScriptExecutor.mk (mkRuntime (runtimes w)) SessionManager.new in
  let ctx := mkContext (contexts w) (mkRuntime (runtimes w)) in
  runtime_new E (runtimes w) = Ok tt ->
  Utf8.from_utf8 (File.content main_file) = Ok code ->
  context_full E ctx = Ok tt ->
  JavaScriptExecutor.setup_javascript_environment E self ctx = Ok tt ->
  eval E ctx code = Returned v ns ->
  Guest.run E lang (main_file :: rest) stdin args env (Some (Limits.mk (Some T) mem)) w
  = Done (Ok (success_result (JavaScriptExecutor.output v)
                             (context_full_ns E ctx + setup_ns E ctx + ns)))
         (evaluated (with_runtime w) ctx code
                    (context_full_ns E ctx + setup_ns E ctx + ns)).
Proof.
  intros self ctx Hrt Hutf Hctx Hsetup Heval.
  rewrite run_cases, Hrt, Hutf, execute_code_cases.
  cbn [contexts with_runtime JavaScriptExecutor.runtime].
  fold ctx. fold self. by rewrite Hctx, Hsetup, Heval.
Qed.

(** ** Entry point and decoding *)







(** ** What the result carries, and what the call reads *)

(** Every result [execute_code] builds has no compile stage and no memory
    figure. *)
Lemma execute_code_memory_bytes
      (E : Engine) (self : JavaScriptExecutor.t) (code : string)
      (limits : option Limits.t) (w w' : World) (res : Result_.t) :
  JavaScriptExecutor.execute_code E self code limits w = Done (Ok res) w' ->
  Result_.memory_bytes res = None /\ Result_.compile res = None.
Proof.
  rewrite execute_code_cases; cbn zeta.
  destruct (context_full E _) as [[]|e]; [|discriminate].
  destruct (JavaScriptExecutor.setup_javascript_environment E self _) as [[]|e].
  - destruct (eval E _ code) as [v ns|e ns|]; [| |discriminate];
      intros [= <- _]; split; reflexivity.
  - intros [= <- _]; split; reflexivity.
Qed.

(** C8, on the claim as stated.  A call whose limits set [memory_bytes] to
    1024 returns a result whose [memory_bytes] is absent. *)
Lemma run_memory_ceiling_counterexample :
  exists (res : Result_.t) (w' : World),
    Guest.run demo JavaScript [js "main.js" "40+2"] None [] []
              (Some (Limits.mk None (Some 1024))) w0
    = Done (Ok res) w'
    /\ Result_.memory_bytes res = None
    /\ Result_.memory_bytes res <> Some 1024.
Proof.
  eexists _, _. split; [reflexivity|]. split; [reflexivity | discriminate].
Qed.

(** C8, amended.  Whatever the limits say about memory, the result that [run]
    returns has no [memory_bytes]: the engine neither enforces nor reports
    the ceiling. *)
Theorem run_memory_bytes_absent
        (E : Engine) (lang : Language) (files : list File.t) (stdin : option string)
        (args : list string) (env : list (string * string))
        (constraints : option Limits.t) (w w' : World) (res : Result_.t) :
  Guest.run E lang files stdin args env constraints w = Done (Ok res) w' ->
  Result_.memory_bytes res = None.
Proof.
  rewrite run_cases.
  destruct (runtime_new E (runtimes w)) as [[]|e]; [|discriminate].
  destruct files as [|main_file rest]; [discriminate|].
  destruct (Utf8.from_utf8 (File.content main_file)) as [code|e]; [|discriminate].
  destruct (JavaScriptExecutor.execute_code E _ code constraints _)
    as [[r|e] w2|] eqn:Hexec; simpl; [|discriminate..].
  intros [= <- _]. by apply execute_code_memory_bytes in Hexec as [? _].
Qed.

Lemma run_memory_bytes_absent_witness :
  let w' := evaluated (with_runtime w0) (mkContext 0 (mkRuntime 0)) "40+2" 1500000 in
  Guest.run demo JavaScript [js "main.js" "40+2"] None [] []
            (Some (Limits.mk (Some 100) (Some 1024))) w0
  = Done (Ok (success_result "40+2" 1500000)) w'
  /\ Result_.memory_bytes (success_result "40+2" 1500000) = None.
Proof.
  intros w'. split; [reflexivity|].
  apply (run_memory_bytes_absent demo JavaScript [js "main.js" "40+2"] None [] []
           (Some (Limits.mk (Some 100) (Some 1024))) w0 w').
  reflexivity.
Defined.

(** C9.  Two stateless calls that differ only in [stdin], [args] and [env]
    do the same thing from the same world: same returned value (or both never
    return) and same world afterwards. *)
Theorem run_ignores_stdin_args_env
        (E : Engine) (lang : Language) (files : list File.t)
        (stdin1 stdin2 : option string) (args1 args2 : list string)
        (env1 env2 : list (string * string))
        (constraints : option Limits.t) (w : World) :
  Guest.run E lang files stdin1 args1 env1 constraints w
  = Guest.run E lang files stdin2 args2 env2 constraints w.
Proof. by rewrite !run_cases. Qed.

(** The language tag is not read either, and a session's [run_code] does not
    read its [args]. *)
Lemma run_ignores_lang
      (E : Engine) (lang1 lang2 : Language) (files : list File.t)
      (stdin : option string) (args : list string) (env : list (string * string))
      (constraints : option Limits.t) (w : World) :
  Guest.run E lang1 files stdin args env constraints w
  = Guest.run E lang2 files stdin args env constraints w.
Proof. by rewrite !run_cases. Qed.

Lemma run_code_ignores_args
      (E : Engine) (s : ExecutionSession.t) (entrypoint : string)
      (args1 args2 : list string) (limits : option Limits.t) (w : World) :
  ExecutionSession.run_code E s entrypoint args1 limits w
  = ExecutionSession.run_code E s entrypoint args2 limits w.
Proof. reflexivity. Qed.

(** ** Session files *)

(** C6.  Uploading [v1] and then [v2] under the same name leaves exactly [v2]
    under that name: the lookup gives [v2], the listing of the files has no
    name twice and pairs the name with [v2] only, the second upload adds no
    entry, and the files are those of a single upload of [v2]. *)
Theorem upload_file_last_write_wins
        (s : ExecutionSession.t) (fileA : string) (v1 v2 : list byte) :
  let s1 := (ExecutionSession.upload_file s (File.mk fileA v1)).2 in
  let s2 := (ExecutionSession.upload_file s1 (File.mk fileA v2)).2 in
  (ExecutionSession.upload_file s1 (File.mk fileA v2)).1 = Ok tt
  /\ ExecutionSession.files s2 !! fileA = Some v2
  /\ NoDup (map_to_list (ExecutionSession.files s2)).*1
  /\ (forall v : list byte,
         (fileA, v) ∈ map_to_list (ExecutionSession.files s2) -> v = v2)
  /\ size (ExecutionSession.files s2) = size (ExecutionSession.files s1)
  /\ ExecutionSession.files s2 = <[fileA := v2]> (ExecutionSession.files s).
Proof.
  intros s1 s2. subst s1 s2. cbn.
  split; [reflexivity|].
  split; [apply lookup_insert_eq|].
  split; [apply NoDup_fst_map_to_list|].
  split.
  { intros v Hv. apply elem_of_map_to_list in Hv.
    rewrite lookup_insert_eq in Hv. congruence. }
  split.
  - apply map_size_insert_Some. rewrite lookup_insert_eq. eauto.
  - apply insert_insert_eq.
Qed.

(** Other names keep their content across an upload. *)
Lemma upload_file_other
      (s : ExecutionSession.t) (file : File.t) (other : string) :
  other <> File.name file ->
  ExecutionSession.files (ExecutionSession.upload_file s file).2 !! other
  = ExecutionSession.files s !! other.
Proof. intros Hne. cbn. by apply lookup_insert_ne. Qed.

(** C10.  [create_session] returns [Ok] for every id, clock and manager; the
    session then registered under the id is a new one with no files, whatever
    was registered before, and the other ids keep their sessions. *)
Theorem create_session_replaces
        (self : SessionManager.t) (id language : string) (w : World) :
  exists self' : SessionManager.t,
    SessionManager.create_session self id language w = Done (Ok tt, self') w
    /\ SessionManager.get_session self' id
       = Some (SessionData.mk language ∅ "/" (clock_ns w))
    /\ (forall other : string,
           other <> id ->
           SessionManager.get_session self' other
           = SessionManager.get_session self other).
Proof.
  eexists. split; [reflexivity|].
  unfold SessionManager.get_session; cbn.
  split; [apply lookup_insert_eq|].
  intros other Hne. by apply lookup_insert_ne.
Qed.

(** A session that held files holds none once its id is created again. *)
Example create_session_discards_files :
  let files : gmap string (list byte) := {[ "main.js" := [x31] ]} in
  let before := SessionManager.mk {[ "s1" := SessionData.mk "javascript" files "/" 7 ]} in
  exists after : SessionManager.t,
    SessionManager.create_session before "s1" "javascript" w0 = Done (Ok tt, after) w0
    /\ (SessionData.files <$> SessionManager.get_session after "s1") = Some ∅.
Proof.
  eexists. split; [reflexivity|].
  unfold SessionManager.get_session; cbn. by rewrite lookup_insert_eq.
Qed.

(** ** Which interpreter instance evaluates *)

Section Instances.

Variable E : Engine.

(** [execute_code] constructs no runtime; it logs at most one evaluation,
    in the context it constructed on the runtime of its executor. *)
Lemma execute_code_trace
      (self : JavaScriptExecutor.t) (code : string) (limits : option Limits.t)
      (w w' : World) (r : Result Result_.t ErrorText) :
  JavaScriptExecutor.execute_code E self code limits w = Done r w' ->
  runtimes w' = runtimes w
  /\ (contexts w <= contexts w' <= S (contexts w))%nat
  /\ (trace w' = trace w
      \/ (contexts w' = S (contexts w)
          /\ trace w'
             = (trace w
                  ++ [Evaluated (mkContext (contexts w) (JavaScriptExecutor.runtime self))
                                code])%list)).
Proof.
  rewrite execute_code_cases; cbn zeta.
  destruct (context_full E _) as [[]|e].
  - destruct (JavaScriptExecutor.setup_javascript_environment E self _) as [[]|e].
    + destruct (eval E _ code) as [v ns|e ns|]; [| |discriminate];
        intros [= _ <-]; cbn; (split; [reflexivity|]); (split; [lia|]);
        right; split; reflexivity.
    + intros [= _ <-]; cbn. split; [reflexivity|]. split; [lia|]. by left.
  - intros [= _ <-]. split; [reflexivity|]. split; [lia|]. by left.
Qed.

Lemma known_grow (w w' : World) :
  known w ->
  (contexts w <= contexts w')%nat ->
  (runtimes w <= runtimes w')%nat ->
  trace w' = trace w ->
  known w'.
Proof.
  unfold known. intros Hk Hc Hr ->.
  eapply Forall_impl; [exact Hk|]. intros ev [H1 H2]. split; lia.
Qed.






(** A new session comes with a runtime constructed for it. *)
Lemma session_new_runtime (language : Language) (w w' : World) (s : ExecutionSession.t) :
  known w ->
  ExecutionSession.new E language w = Done (Ok s) w' ->
  known w'
  /\ JavaScriptExecutor.runtime (ExecutionSession.executor s) = mkRuntime (runtimes w)
  /\ runtimes w' = S (runtimes w).
Proof.
  intros Hk.
  unfold ExecutionSession.new, JavaScriptExecutor.new, bind, ret, Runtime_new,
    Uuid_new_v4; cbn.
  destruct (runtime_new E (runtimes w)) as [[]|e]; cbn; [|discriminate].
  intros [= <- <-]; cbn.
  split; [apply (known_grow w); [done | cbn; lia..| reflexivity]|]. done.
Qed.


End Instances.




(** * Further properties of the code *)

(** ** The stateless [run] *)

(** A program that returns a value: [run] gives [Ok] with exit code 0, empty
    stderr, and as stdout the text of the value: ["undefined"], ["null"], the
    string itself, or the debug rendering of any other value. *)
Theorem run_reports_value
        (E : Engine) (lang : Language) (main_file : File.t) (rest : list File.t)
        (stdin : option string) (args : list string) (env : list (string * string))
        (constraints : option Limits.t) (w : World)
        (code : string) (v : Value) (ns : N) :
  let self := JavaScriptExecutor.mk (mkRuntime (runtimes w)) SessionManager.new in
  let ctx := mkContext (contexts w) (mkRuntime (runtimes w)) in
  runtime_new E (runtimes w) = Ok tt ->
  Utf8.from_utf8 (File.content main_file) = Ok code ->
  context_full E ctx = Ok tt ->
  JavaScriptExecutor.setup_javascript_environment E self ctx = Ok tt ->
  eval E ctx code = Returned v ns ->
  exists (res : Result_.t) (w' : World),
    Guest.run E lang (main_file :: rest) stdin args env constraints w = Done (Ok res) w'
    /\ StageResult.exit_code (Result_.run res) = Some 0%Z
    /\ StageResult.stderr (Result_.run res) = ""
    /\ StageResult.stdout (Result_.run res)
       = match v with
         | Undefined => "undefined"
         | Null => "null"
         | JsString s => s
         | Other debug => debug
         end.
Proof.
  intros self ctx Hrt Hutf Hctx Hsetup Heval.
  rewrite run_cases, Hrt, Hutf, execute_code_cases.
  cbn [contexts with_runtime JavaScriptExecutor.runtime].
  fold ctx. fold self. rewrite Hctx, Hsetup, Heval.
  eexists _, _. split; [reflexivity|].
  repeat split.
Qed.

Lemma run_reports_value_witness :
  (runtime_new demo 0 = Ok tt
   /\ Utf8.from_utf8 (File.content (js "main.js" "")) = Ok ""
   /\ context_full demo (mkContext 0 (mkRuntime 0)) = Ok tt
   /\ eval demo (mkContext 0 (mkRuntime 0)) "" = Returned Undefined 0)
  /\ exists (res : Result_.t) (w' : World),
      Guest.run demo JavaScript [js "main.js" ""] None [] [] None w0 = Done (Ok res) w'
      /\ StageResult.exit_code (Result_.run res) = Some 0%Z
      /\ StageResult.stderr (Result_.run res) = ""
      /\ StageResult.stdout (Result_.run res) = "undefined".
Proof.
  split; [repeat split; reflexivity|].
  apply (run_reports_value demo JavaScript (js "main.js" "") [] None [] [] None w0
           "" Undefined 0); reflexivity.
Defined.

(** When installing the console fails, the failure is reported like a fault
    of the program (exit code 1, stderr ["JavaScript Error: "] and the text)
    and the program is not evaluated. *)
Theorem run_reports_setup_failure
        (E : Engine) (lang : Language) (main_file : File.t) (rest : list File.t)
        (stdin : option string) (args : list string) (env : list (string * string))
        (constraints : option Limits.t) (w : World) (code : string) (e : ErrorText) :
  let self := JavaScriptExecutor.mk (mkRuntime (runtimes w)) SessionManager.new in
  let ctx := mkContext (contexts w) (mkRuntime (runtimes w)) in
  runtime_new E (runtimes w) = Ok tt ->
  Utf8.from_utf8 (File.content main_file) = Ok code ->
  context_full E ctx = Ok tt ->
  JavaScriptExecutor.setup_javascript_environment E self ctx = Err e ->
  exists (res : Result_.t) (w' : World),
    Guest.run E lang (main_file :: rest) stdin args env constraints w = Done (Ok res) w'
    /\ StageResult.exit_code (Result_.run res) = Some 1%Z
    /\ StageResult.stdout (Result_.run res) = ""
    /\ StageResult.stderr (Result_.run res) = "JavaScript Error: " +:+ e
    /\ trace w' = trace w.
Proof.
  intros self ctx Hrt Hutf Hctx Hsetup.
  rewrite run_cases, Hrt, Hutf, execute_code_cases.
  cbn [contexts with_runtime JavaScriptExecutor.runtime].
  fold ctx. fold self. rewrite Hctx, Hsetup.
  eexists _, _. split; [reflexivity|].
  repeat split.
Qed.

Lemma run_reports_setup_failure_witness :
  (runtime_new demo_no_console 0 = Ok tt
   /\ Utf8.from_utf8 (File.content (js "main.js" "40+2")) = Ok "40+2"
   /\ context_full demo_no_console (mkContext 0 (mkRuntime 0)) = Ok tt
   /\ JavaScriptExecutor.setup_javascript_environment
        demo_no_console (JavaScriptExecutor.mk (mkRuntime 0) SessionManager.new)
        (mkContext 0 (mkRuntime 0))
      = Err "out of memory")
  /\ exists (res : Result_.t) (w' : World),
      Guest.run demo_no_console JavaScript [js "main.js" "40+2"] None [] [] None w0
      = Done (Ok res) w'
      /\ StageResult.exit_code (Result_.run res) = Some 1%Z
      /\ StageResult.stdout (Result_.run res) = ""
      /\ StageResult.stderr (Result_.run res) = "JavaScript Error: " +:+ "out of memory"
      /\ trace w' = trace w0.
Proof.
  split; [repeat split; reflexivity|].
  apply (run_reports_setup_failure demo_no_console JavaScript (js "main.js" "40+2") []
           None [] [] None w0 "40+2" "out of memory"); reflexivity.
Defined.

(** [run] fails with a service error exactly when the executor cannot be
    constructed, no file is supplied, the first file is not valid UTF-8, or
    the context cannot be constructed; nothing the program does makes it
    fail. *)
Theorem run_error_iff
        (E : Engine) (lang : Language) (files : list File.t) (stdin : option string)
        (args : list string) (env : list (string * string))
        (constraints : option Limits.t) (w : World) :
  (exists (err : Error) (w' : World),
      Guest.run E lang files stdin args env constraints w = Done (Err err) w')
  <->
  ((exists e : ErrorText, runtime_new E (runtimes w) = Err e)
   \/ files = []
   \/ (exists (main_file : File.t) (rest : list File.t) (e : ErrorText),
          files = main_file :: rest
          /\ Utf8.from_utf8 (File.content main_file) = Err e)
   \/ (exists (main_file : File.t) (rest : list File.t) (code : string) (e : ErrorText),
          files = main_file :: rest
          /\ Utf8.from_utf8 (File.content main_file) = Ok code
          /\ context_full E (mkContext (contexts w) (mkRuntime (runtimes w))) = Err e)).
Proof.
  rewrite run_cases.
  destruct (runtime_new E (runtimes w)) as [[]|e0].
  2:{ split; [intros _; left; eauto | intros _; eauto]. }
  destruct files as [|main_file rest].
  { split; [intros _; right; left; reflexivity | intros _; eauto]. }
  destruct (Utf8.from_utf8 (File.content main_file)) as [code|e1] eqn:Hutf.
  2:{ split; [intros _; right; right; left; eauto | intros _; eauto]. }
  rewrite execute_code_cases; cbn zeta.
  cbn [contexts with_runtime JavaScriptExecutor.runtime].
  destruct (context_full E _) as [[]|e2] eqn:Hctx.
  2:{ split; [intros _; right; right; right; eauto 10 | intros _; cbn; eauto]. }
  split.
  - intros (err & w' & H). exfalso.
    destruct (JavaScriptExecutor.setup_javascript_environment E _ _) as [[]|e3];
      [|discriminate].
    destruct (eval E _ code) as [v ns|e4 ns|]; discriminate.
  - intros [[e H] | [H | [(f & r & e & [= <- <-] & H) | (f & r & c & e & [= <- <-] & H1 & H2)]]];
      congruence.
Qed.

(** The two results [execute_code] can build. *)
Lemma execute_code_result_cases
      (E : Engine) (self : JavaScriptExecutor.t) (code : string)
      (limits : option Limits.t) (w w' : World) (res : Result_.t) :
  JavaScriptExecutor.execute_code E self code limits w = Done (Ok res) w' ->
  (exists (out : string) (ns : N), res = success_result out ns)
  \/ (exists (e : ErrorText) (ns : N), res = fault_result e ns).
Proof.
  rewrite execute_code_cases; cbn zeta.
  destruct (context_full E _) as [[]|e]; [|discriminate].
  destruct (JavaScriptExecutor.setup_javascript_environment E self _) as [[]|e].
  - destruct (eval E _ code) as [v ns|e ns|]; [| |discriminate];
      intros [= <- _]; eauto.
  - intros [= <- _]; eauto.
Qed.

Lemma run_result_cases
      (E : Engine) (lang : Language) (files : list File.t) (stdin : option string)
      (args : list string) (env : list (string * string))
      (constraints : option Limits.t) (w w' : World) (res : Result_.t) :
  Guest.run E lang files stdin args env constraints w = Done (Ok res) w' ->
  (exists (out : string) (ns : N), res = success_result out ns)
  \/ (exists (e : ErrorText) (ns : N), res = fault_result e ns).
Proof.
  rewrite run_cases.
  destruct (runtime_new E (runtimes w)) as [[]|e]; [|discriminate].
  destruct files as [|main_file rest]; [discriminate|].
  destruct (Utf8.from_utf8 (File.content main_file)) as [code|e]; [|discriminate].
  destruct (JavaScriptExecutor.execute_code E _ code constraints _)
    as [[r|e] w2|] eqn:Hexec; simpl; [|discriminate..].
  intros [= <- _]. by apply execute_code_result_cases in Hexec.
Qed.

(** Every result [run] returns has the same shape: no compile stage, no
    signal, a time that fits in 64 bits, and either exit code 0 with empty
    stderr, or exit code 1 with empty stdout and a stderr that starts with
    ["JavaScript Error: "]. *)
Theorem run_result_shape
        (E : Engine) (lang : Language) (files : list File.t) (stdin : option string)
        (args : list string) (env : list (string * string))
        (constraints : option Limits.t) (w w' : World) (res : Result_.t) :
  Guest.run E lang files stdin args env constraints w = Done (Ok res) w' ->
  Result_.compile res = None
  /\ StageResult.signal (Result_.run res) = None
  /\ (exists ms : N, Result_.time_ms res = Some ms /\ ms < 2 ^ 64)
  /\ ((StageResult.exit_code (Result_.run res) = Some 0%Z
       /\ StageResult.stderr (Result_.run res) = "")
      \/ (StageResult.exit_code (Result_.run res) = Some 1%Z
          /\ StageResult.stdout (Result_.run res) = ""
          /\ exists e : ErrorText,
              StageResult.stderr (Result_.run res) = "JavaScript Error: " +:+ e)).
Proof.
  intros Hrun.
  assert (forall ns : N, reported_ms ns < 2 ^ 64) as Hms
      by (intros ns; apply N.mod_lt; discriminate).
  apply run_result_cases in Hrun as [(out & ns & ->) | (e & ns & ->)]; cbn.
  - repeat split; [eauto | by left].
  - repeat split; [eauto | right; eauto].
Qed.

Lemma run_result_shape_witness :
  let res := fault_result "boom" 2000000 in
  Guest.run demo JavaScript [js "main.js" "throw boom"] None [] [] None w0
  = Done (Ok res)
         (evaluated (with_runtime w0) (mkContext 0 (mkRuntime 0)) "throw boom" 2000000)
  /\ Result_.compile res = None
  /\ StageResult.signal (Result_.run res) = None
  /\ (exists ms : N, Result_.time_ms res = Some ms /\ ms < 2 ^ 64)
  /\ ((StageResult.exit_code (Result_.run res) = Some 0%Z
       /\ StageResult.stderr (Result_.run res) = "")
      \/ (StageResult.exit_code (Result_.run res) = Some 1%Z
          /\ StageResult.stdout (Result_.run res) = ""
          /\ exists e : ErrorText,
              StageResult.stderr (Result_.run res) = "JavaScript Error: " +:+ e)).
Proof.
  intros res. split; [reflexivity|].
  apply (run_result_shape demo JavaScript [js "main.js" "throw boom"] None [] [] None w0
           (evaluated (with_runtime w0) (mkContext 0 (mkRuntime 0)) "throw boom" 2000000)).
  reflexivity.
Defined.

(** The limits have no effect on a stateless call: two calls that differ only
    in their limits do the same thing from the same world. *)
Theorem run_ignores_limits
        (E : Engine) (lang : Language) (files : list File.t) (stdin : option string)
        (args : list string) (env : list (string * string))
        (limits1 limits2 : option Limits.t) (w : World) :
  Guest.run E lang files stdin args env limits1 w
  = Guest.run E lang files stdin args env limits2 w.
Proof.
  rewrite !run_cases.
  destruct (runtime_new E (runtimes w)) as [[]|e]; [|reflexivity].
  destruct files as [|main_file rest]; [reflexivity|].
  destruct (Utf8.from_utf8 (File.content main_file)) as [code|e]; [|reflexivity].
  by rewrite (execute_code_limits_irrelevant E _ code limits1 limits2).
Qed.

(** Decoding keeps the bytes. *)
Lemma from_utf8_bytes (v : list byte) (code : string) :
  Utf8.from_utf8 v = Ok code -> list_byte_of_string code = v.
Proof.
  unfold Utf8.from_utf8. destruct (Utf8.run_utf8_validation v); [|discriminate].
  intros [= <-]. apply list_byte_of_string_of_list_byte.
Qed.

(** A stateless call evaluates at most once, and what it evaluates is, byte
    for byte, the content of the first file. *)
Theorem run_evaluates_first_file
        (E : Engine) (lang : Language) (files : list File.t) (stdin : option string)
        (args : list string) (env : list (string * string))
        (constraints : option Limits.t) (w w' : World) (r : Result Result_.t Error)
        (ev : Event) :
  Guest.run E lang files stdin args env constraints w = Done r w' ->
  ev ∈ added w w' ->
  added w w' = [ev]
  /\ exists (main_file : File.t) (rest : list File.t),
      files = main_file :: rest
      /\ list_byte_of_string (ev_code ev) = File.content main_file.
Proof.
  rewrite run_cases. unfold added.
  destruct (runtime_new E (runtimes w)) as [[]|e].
  2:{ intros [= _ <-]. rewrite drop_all. by intros ?%elem_of_nil. }
  destruct files as [|main_file rest].
  { intros [= _ <-]. cbn. rewrite drop_all. by intros ?%elem_of_nil. }
  destruct (Utf8.from_utf8 (File.content main_file)) as [code|e] eqn:Hutf.
  2:{ intros [= _ <-]. cbn. rewrite drop_all. by intros ?%elem_of_nil. }
  destruct (JavaScriptExecutor.execute_code E _ code constraints _)
    as [r2 w2|] eqn:Hexec; [|discriminate].
  intros [= _ <-].
  apply execute_code_trace in Hexec as (_ & _ & [Htr | [_ Htr]]); cbn in Htr;
    rewrite Htr.
  - rewrite drop_all. by intros ?%elem_of_nil.
  - rewrite drop_app_length. intros ->%list_elem_of_singleton.
    split; [reflexivity|]. exists main_file, rest. split; [reflexivity|].
    cbn. by apply from_utf8_bytes.
Qed.

Lemma run_evaluates_first_file_witness :
  let ctx := mkContext 0 (mkRuntime 0) in
  let w' := evaluated (with_runtime w0) ctx "40+2" 1500000 in
  let files := [js "a.js" "40+2"; js "b.js" "throw boom"] in
  Guest.run demo JavaScript files None [] [] None w0
  = Done (Ok (success_result "40+2" 1500000)) w'
  /\ added w0 w' = [Evaluated ctx "40+2"]
  /\ exists (main_file : File.t) (rest : list File.t),
      files = main_file :: rest
      /\ list_byte_of_string (ev_code (Evaluated ctx "40+2")) = File.content main_file.
Proof.
  intros ctx w' files. split; [reflexivity|].
  apply (run_evaluates_first_file demo JavaScript files None [] [] None w0 w'
           (Ok (success_result "40+2" 1500000)) (Evaluated ctx "40+2"));
    [reflexivity|].
  apply list_elem_of_singleton. reflexivity.
Defined.




(** The measured time is left aside for a reason: it counts the construction
    of the context, which need not take the same time in every world. *)
Example run_time_depends_on_world :
  (exists (res : Result_.t) (w' : World),
      Guest.run demo_slow JavaScript [js "main.js" "40+2"] None [] [] None w0
      = Done (Ok res) w'
      /\ Result_.time_ms res = Some 6021)
  /\ (exists (res : Result_.t) (w' : World),
         Guest.run demo_slow JavaScript [js "main.js" "40+2"] None [] [] None
                   (mkWorld 77 3 5 1 [Evaluated (mkContext 4 (mkRuntime 2)) "1"])
         = Done (Ok res) w'
         /\ Result_.time_ms res = Some 6121).
Proof. split; eexists _, _; split; reflexivity. Qed.

(** ** Sessions *)

(** A session that was just created has no files, so [run_code] fails with
    ["File not found: <name>"] for every entry point, and does nothing
    else. *)
Theorem new_session_has_no_entry_point
        (E : Engine) (language : Language) (w w1 w2 : World) (s : ExecutionSession.t)
        (entrypoint : string) (args : list string) (limits : option Limits.t) :
  ExecutionSession.new E language w = Done (Ok s) w1 ->
  ExecutionSession.files s = ∅
  /\ ExecutionSession.language s = language
  /\ ExecutionSession.working_dir s = "/"
  /\ ExecutionSession.run_code E s entrypoint args limits w2
     = Done (Err ("File not found: " +:+ entrypoint)) w2.
Proof.
  unfold ExecutionSession.new, JavaScriptExecutor.new, bind, ret, Runtime_new,
    Uuid_new_v4; cbn.
  destruct (runtime_new E (runtimes w)) as [[]|e]; cbn; [|discriminate].
  intros [= <- _]. unfold ExecutionSession.run_code; cbn.
  by rewrite lookup_empty.
Qed.

Lemma new_session_has_no_entry_point_witness :
  let s := ExecutionSession.mk "session-0" JavaScript ∅ "/"
                               (JavaScriptExecutor.mk (mkRuntime 0) SessionManager.new) in
  let w1 := mkWorld 0 1 0 1 [] in
  ExecutionSession.new demo JavaScript w0 = Done (Ok s) w1
  /\ ExecutionSession.files s = ∅
  /\ ExecutionSession.language s = JavaScript
  /\ ExecutionSession.working_dir s = "/"
  /\ ExecutionSession.run_code demo s "main.js" [] None w1
     = Done (Err ("File not found: " +:+ "main.js")) w1.
Proof.
  intros s w1. split; [reflexivity|].
  apply (new_session_has_no_entry_point demo JavaScript w0 w1 w1 s "main.js" [] None).
  reflexivity.
Defined.


(** Two sessions, the second created at any time after the first, have
    different runtimes. *)
Theorem sessions_have_distinct_runtimes
        (E : Engine) (lang1 lang2 : Language) (w w1 w2 w3 : World)
        (s1 s2 : ExecutionSession.t) :
  ExecutionSession.new E lang1 w = Done (Ok s1) w1 ->
  (runtimes w1 <= runtimes w2)%nat ->
  ExecutionSession.new E lang2 w2 = Done (Ok s2) w3 ->
  JavaScriptExecutor.runtime (ExecutionSession.executor s1)
  <> JavaScriptExecutor.runtime (ExecutionSession.executor s2).
Proof.
  unfold ExecutionSession.new, JavaScriptExecutor.new, bind, ret, Runtime_new,
    Uuid_new_v4; cbn.
  destruct (runtime_new E (runtimes w)) as [[]|e]; cbn; [|discriminate].
  intros [= <- <-]; cbn. intros Hle.
  destruct (runtime_new E (runtimes w2)) as [[]|e]; cbn; [|discriminate].
  intros [= <- _]; cbn. intros [= Heq]. lia.
Qed.

Lemma sessions_have_distinct_runtimes_witness :
  let exec (n : nat) := JavaScriptExecutor.mk (mkRuntime n) SessionManager.new in
  let s1 := ExecutionSession.mk "session-0" JavaScript ∅ "/" (exec 0%nat) in
  let s2 := ExecutionSession.mk "session-1" Python ∅ "/" (exec 1%nat) in
  (ExecutionSession.new demo JavaScript w0 = Done (Ok s1) (mkWorld 0 1 0 1 [])
   /\ ExecutionSession.new demo Python (mkWorld 0 1 0 1 []) = Done (Ok s2) (mkWorld 0 2 0 2 []))
  /\ JavaScriptExecutor.runtime (ExecutionSession.executor s1)
     <> JavaScriptExecutor.runtime (ExecutionSession.executor s2).
Proof.
  intros exec s1 s2. split; [split; reflexivity|].
  apply (sessions_have_distinct_runtimes demo JavaScript Python w0
           (mkWorld 0 1 0 1 []) (mkWorld 0 1 0 1 []) (mkWorld 0 2 0 2 []) s1 s2);
    [reflexivity | cbn; lia | reflexivity].
Defined.

(** [upload_file] always succeeds and changes nothing but the entry under the
    file's name: the other files and the identity, language, working
    directory and executor of the session stay as they were. *)
Theorem upload_file_frame (s : ExecutionSession.t) (file : File.t) :
  let s' := (ExecutionSession.upload_file s file).2 in
  (ExecutionSession.upload_file s file).1 = Ok tt
  /\ ExecutionSession.files s' !! File.name file = Some (File.content file)
  /\ (forall other : string,
         other <> File.name file ->
         ExecutionSession.files s' !! other = ExecutionSession.files s !! other)
  /\ ExecutionSession.id s' = ExecutionSession.id s
  /\ ExecutionSession.language s' = ExecutionSession.language s
  /\ ExecutionSession.working_dir s' = ExecutionSession.working_dir s
  /\ ExecutionSession.executor s' = ExecutionSession.executor s.
Proof.
  cbn. split; [reflexivity|].
  split; [apply lookup_insert_eq|].
  split; [|done].
  intros other Hne. by apply lookup_insert_ne.
Qed.

(** Uploads under different names commute. *)
Theorem upload_file_commute (s : ExecutionSession.t) (f g : File.t) :
  File.name f <> File.name g ->
  (ExecutionSession.upload_file (ExecutionSession.upload_file s f).2 g).2
  = (ExecutionSession.upload_file (ExecutionSession.upload_file s g).2 f).2.
Proof.
  intros Hne. cbn. f_equal. by apply insert_insert_ne.
Qed.

Lemma upload_file_commute_witness :
  let s := ExecutionSession.mk "session-0" JavaScript ∅ "/"
                               (JavaScriptExecutor.mk (mkRuntime 0) SessionManager.new) in
  File.name (js "b.js" "2") <> File.name (js "a.js" "1")
  /\ (ExecutionSession.upload_file
        (ExecutionSession.upload_file s (js "b.js" "2")).2 (js "a.js" "1")).2
     = (ExecutionSession.upload_file
          (ExecutionSession.upload_file s (js "a.js" "1")).2 (js "b.js" "2")).2.
Proof.
  intros s. split; [discriminate|].
  apply (upload_file_commute s (js "b.js" "2") (js "a.js" "1")). discriminate.
Defined.

(** Uploading the same file twice is the same as uploading it once. *)
Theorem upload_file_idempotent (s : ExecutionSession.t) (file : File.t) :
  (ExecutionSession.upload_file (ExecutionSession.upload_file s file).2 file).2
  = (ExecutionSession.upload_file s file).2.
Proof. cbn. f_equal. apply insert_insert_eq. Qed.

(** After a file was uploaded, running it by its name decodes and executes
    exactly that content on the session's executor; it cannot fail with
    "File not found". *)
Theorem run_code_after_upload
        (E : Engine) (s : ExecutionSession.t) (file : File.t) (args : list string)
        (limits : option Limits.t) (w : World) :
  ExecutionSession.run_code E (ExecutionSession.upload_file s file).2
                            (File.name file) args limits w
  = match Utf8.from_utf8 (File.content file) with
    | Err e => Done (Err e) w
    | Ok code =>
        JavaScriptExecutor.execute_code E (ExecutionSession.executor s) code limits w
    end.
Proof.
  unfold ExecutionSession.run_code; cbn. rewrite lookup_insert_eq; cbn.
  by destruct (Utf8.from_utf8 (File.content file)).
Qed.

(** A [run_code] that fails has done nothing: the world is as before, and the
    failure is a missing entry point, an entry file that is not valid UTF-8,
    or a context that could not be constructed. *)
Theorem run_code_error
        (E : Engine) (s : ExecutionSession.t) (entrypoint : string) (args : list string)
        (limits : option Limits.t) (w w' : World) (e : ErrorText) :
  ExecutionSession.run_code E s entrypoint args limits w = Done (Err e) w' ->
  w' = w
  /\ ((ExecutionSession.files s !! entrypoint = None
       /\ e = "File not found: " +:+ entrypoint)
      \/ (exists bytes : list byte,
             ExecutionSession.files s !! entrypoint = Some bytes
             /\ Utf8.from_utf8 bytes = Err e)
      \/ (exists (bytes : list byte) (code : string),
             ExecutionSession.files s !! entrypoint = Some bytes
             /\ Utf8.from_utf8 bytes = Ok code
             /\ context_full E
                  (mkContext (contexts w)
                             (JavaScriptExecutor.runtime (ExecutionSession.executor s)))
                = Err e)).
Proof.
  unfold ExecutionSession.run_code.
  destruct (ExecutionSession.files s !! entrypoint) as [bytes|]; cbn.
  2:{ intros [= <- <-]. split; [reflexivity|]. by left. }
  destruct (Utf8.from_utf8 bytes) as [code|e1] eqn:Hutf.
  2:{ intros [= <- <-]. split; [reflexivity|]. right; left; eauto. }
  rewrite execute_code_cases; cbn zeta.
  destruct (context_full E _) as [[]|e2] eqn:Hctx.
  - destruct (JavaScriptExecutor.setup_javascript_environment E _ _) as [[]|e3];
      [|discriminate].
    destruct (eval E _ code) as [v ns|e4 ns|]; discriminate.
  - intros [= <- <-]. split; [reflexivity|]. right; right; eauto.
Qed.

Lemma run_code_error_witness :
  let s := ExecutionSession.mk "session-0" JavaScript {[ "main.js" := [xff] ]} "/"
                               (JavaScriptExecutor.mk (mkRuntime 0) SessionManager.new) in
  let w := mkWorld 0 1 0 1 [] in
  let e := "invalid utf-8 sequence of 1 bytes from index 0" in
  ExecutionSession.run_code demo s "main.js" [] None w = Done (Err e) w
  /\ w = w
  /\ ((ExecutionSession.files s !! "main.js" = None
       /\ e = "File not found: " +:+ "main.js")
      \/ (exists bytes : list byte,
             ExecutionSession.files s !! "main.js" = Some bytes
             /\ Utf8.from_utf8 bytes = Err e)
      \/ (exists (bytes : list byte) (code : string),
             ExecutionSession.files s !! "main.js" = Some bytes
             /\ Utf8.from_utf8 bytes = Ok code
             /\ context_full demo
                  (mkContext (contexts w)
                             (JavaScriptExecutor.runtime (ExecutionSession.executor s)))
                = Err e)).
Proof.
  intros s w e.
  assert (ExecutionSession.run_code demo s "main.js" [] None w = Done (Err e) w) as H.
  { unfold ExecutionSession.run_code. subst s; cbn.
    rewrite lookup_singleton_eq. reflexivity. }
  split; [exact H|].
  exact (run_code_error demo s "main.js" [] None w w e H).
Defined.

(** ** The session manager *)

(** [remove_session] hands back the session that was registered under the
    id, if any; afterwards the id is unknown and the other ids keep their
    sessions. *)
Theorem remove_session_spec (self : SessionManager.t) (id : string) :
  let removed := (SessionManager.remove_session self id).1 in
  let self' := (SessionManager.remove_session self id).2 in
  removed = SessionManager.get_session self id
  /\ SessionManager.get_session self' id = None
  /\ (forall other : string,
         other <> id ->
         SessionManager.get_session self' other = SessionManager.get_session self other).
Proof.
  unfold SessionManager.get_session; cbn.
  split; [reflexivity|].
  split; [apply lookup_delete_eq|].
  intros other Hne. by apply lookup_delete_ne.
Qed.

(** Removing an id that is not registered returns nothing and leaves the
    manager as it was. *)
Theorem remove_session_unknown (self : SessionManager.t) (id : string) :
  SessionManager.get_session self id = None ->
  SessionManager.remove_session self id = (None, self).
Proof.
  unfold SessionManager.get_session, SessionManager.remove_session.
  intros Hnone. rewrite Hnone, delete_id by done. by destruct self.
Qed.

Lemma remove_session_unknown_witness :
  SessionManager.get_session SessionManager.new "s1" = None
  /\ SessionManager.remove_session SessionManager.new "s1" = (None, SessionManager.new).
Proof.
  split; [reflexivity|].
  apply (remove_session_unknown SessionManager.new "s1"). reflexivity.
Defined.

(** Creating a session under a free id and removing it again gives back the
    session just created and the manager as it was before. *)
Theorem create_then_remove_session
        (self self' : SessionManager.t) (id language : string) (w w' : World)
        (r : Result unit ErrorText) :
  SessionManager.get_session self id = None ->
  SessionManager.create_session self id language w = Done (r, self') w' ->
  SessionManager.remove_session self' id
  = (Some (SessionData.mk language ∅ "/" (clock_ns w)), self).
Proof.
  unfold SessionManager.get_session, SessionManager.remove_session.
  intros Hnone [= _ <- _]; cbn.
  rewrite lookup_insert_eq, delete_insert_id by done. by destruct self.
Qed.

Lemma create_then_remove_session_witness :
  let created := SessionData.mk "javascript" ∅ "/" 0 in
  let self' := SessionManager.mk {[ "s1" := created ]} in
  (SessionManager.get_session SessionManager.new "s1" = None
   /\ SessionManager.create_session SessionManager.new "s1" "javascript" w0
      = Done (Ok tt, self') w0)
  /\ SessionManager.remove_session self' "s1" = (Some created, SessionManager.new).
Proof.
  intros created self'. split; [split; reflexivity|].
  apply (create_then_remove_session SessionManager.new self' "s1" "javascript" w0 w0
           (Ok tt)); reflexivity.
Defined.

(** Creating a session twice under one id leaves what the second creation
    alone would leave: the last creation wins. *)
Theorem create_session_twice
        (self : SessionManager.t) (id language1 language2 : string) (w1 w2 : World) :
  exists self1 self2 : SessionManager.t,
    SessionManager.create_session self id language1 w1 = Done (Ok tt, self1) w1
    /\ SessionManager.create_session self1 id language2 w2 = Done (Ok tt, self2) w2
    /\ SessionManager.create_session self id language2 w2 = Done (Ok tt, self2) w2.
Proof.
  eexists _, _. split; [reflexivity|]. split; [reflexivity|].
  unfold SessionManager.create_session, bind, ret, Instant_now; cbn.
  by rewrite insert_insert_eq.
Qed.

(** A session that was created is found under its id, with the language it
    was created with, until it is removed; [get_session_mut] finds what
    [get_session] finds. *)
Theorem created_session_is_found
        (self self' : SessionManager.t) (id language : string) (w w' : World)
        (r : Result unit ErrorText) :
  SessionManager.create_session self id language w = Done (r, self') w' ->
  exists session : SessionData.t,
    SessionManager.get_session self' id = Some session
    /\ SessionManager.get_session_mut self' id = Some session
    /\ SessionData.language session = language
    /\ SessionData.files session = ∅
    /\ SessionData.working_dir session = "/"
    /\ SessionData.created_at session = clock_ns w
    /\ SessionManager.get_session (SessionManager.remove_session self' id).2 id = None.
Proof.
  intros [= _ <- _]. eexists.
  unfold SessionManager.get_session, SessionManager.get_session_mut; cbn.
  rewrite lookup_insert_eq, lookup_delete_eq. repeat split.
Qed.

Lemma created_session_is_found_witness :
  let self' := SessionManager.mk {[ "s1" := SessionData.mk "javascript" ∅ "/" 0 ]} in
  SessionManager.create_session SessionManager.new "s1" "javascript" w0
  = Done (Ok tt, self') w0
  /\ exists session : SessionData.t,
      SessionManager.get_session self' "s1" = Some session
      /\ SessionManager.get_session_mut self' "s1" = Some session
      /\ SessionData.language session = "javascript"
      /\ SessionData.files session = ∅
      /\ SessionData.working_dir session = "/"
      /\ SessionData.created_at session = clock_ns w0
      /\ SessionManager.get_session (SessionManager.remove_session self' "s1").2 "s1"
         = None.
Proof.
  intros self'. split; [reflexivity|].
  apply (created_session_is_found SessionManager.new self' "s1" "javascript" w0 w0
           (Ok tt)).
  reflexivity.
Defined.

(** ** The resource limiter *)

(** On durations whose nanosecond part is below one second, the derived
    order is the order of the total number of nanoseconds. *)
Lemma gtb_as_nanos (d1 d2 : Duration.t) :
  Duration.nanos d1 < Duration.NANOS_PER_SEC ->
  Duration.nanos d2 < Duration.NANOS_PER_SEC ->
  Duration.gtb d1 d2 = (Duration.as_nanos d2 <? Duration.as_nanos d1).
Proof.
  unfold Duration.gtb, Duration.as_nanos, Duration.NANOS_PER_SEC.
  destruct d1 as [s1 n1], d2 as [s2 n2]; cbn. intros H1 H2.
  destruct (N.ltb_spec s2 s1), (N.eqb_spec s1 s2),
    (N.ltb_spec n2 n1), (N.ltb_spec (s2 * 1000000000 + n2) (s1 * 1000000000 + n1));
    cbn; try reflexivity; lia.
Qed.

Lemma as_nanos_from_nanos (n : N) : Duration.as_nanos (Duration.from_nanos n) = n.
Proof.
  unfold Duration.as_nanos, Duration.from_nanos, Duration.NANOS_PER_SEC; cbn.
  pose proof (N.div_mod n 1000000000). lia.
Qed.

Lemma as_nanos_from_millis (ms : N) :
  Duration.as_nanos (Duration.from_millis ms) = ms * 1000000.
Proof.
  unfold Duration.as_nanos, Duration.from_millis, Duration.NANOS_PER_SEC,
    Duration.MILLIS_PER_SEC, Duration.NANOS_PER_MILLI; cbn.
  pose proof (N.div_mod ms 1000). lia.
Qed.

(** The check of a limiter that has a budget, as a comparison of
    nanoseconds. *)
Lemma check_timeout_cases
      (max_memory : option N) (ms : N) (start : Instant) (w : World) :
  ResourceLimiter.check_timeout (ResourceLimiter.new max_memory (Some ms)) start w
  = Done (if ms * 1000000 <? clock_ns w - start
          then Err "Execution timeout"
          else Ok tt) w.
Proof.
  unfold ResourceLimiter.check_timeout, ResourceLimiter.new, bind, ret,
    Instant_elapsed; cbn.
  rewrite gtb_as_nanos, as_nanos_from_nanos, as_nanos_from_millis.
  - by destruct (ms * 1000000 <? clock_ns w - start).
  - apply N.mod_lt. discriminate.
  - unfold Duration.from_millis, Duration.MILLIS_PER_SEC, Duration.NANOS_PER_MILLI,
      Duration.NANOS_PER_SEC; cbn.
    pose proof (N.mod_lt ms 1000). lia.
Qed.

(** A limiter with a budget of [ms] milliseconds reports "Execution timeout"
    exactly when strictly more than [ms] milliseconds (counted in nanoseconds)
    have passed since [start]; otherwise, so also at the budget itself, the
    check passes.  The check changes nothing. *)
Theorem check_timeout_iff
        (max_memory : option N) (ms : N) (start : Instant) (w : World) :
  let check :=
    ResourceLimiter.check_timeout (ResourceLimiter.new max_memory (Some ms)) start w in
  (check = Done (Err "Execution timeout") w <-> ms * 1000000 < clock_ns w - start)
  /\ (check = Done (Ok tt) w <-> clock_ns w - start <= ms * 1000000).
Proof.
  cbn zeta. rewrite check_timeout_cases.
  destruct (N.ltb_spec (ms * 1000000) (clock_ns w - start)); split; split;
    try done; try lia.
Qed.

(** Once the check of a limiter has failed, it fails at every later time. *)
Theorem check_timeout_stays_failed
        (max_memory max_time_ms : option N) (start : Instant) (w w1 w2 : World)
        (e : ErrorText) :
  ResourceLimiter.check_timeout (ResourceLimiter.new max_memory max_time_ms) start w
  = Done (Err e) w1 ->
  clock_ns w <= clock_ns w2 ->
  ResourceLimiter.check_timeout (ResourceLimiter.new max_memory max_time_ms) start w2
  = Done (Err "Execution timeout") w2.
Proof.
  destruct max_time_ms as [ms|]; [|discriminate].
  rewrite !check_timeout_cases. intros H Hle.
  destruct (N.ltb_spec (ms * 1000000) (clock_ns w - start)); [|discriminate].
  destruct (N.ltb_spec (ms * 1000000) (clock_ns w2 - start)); [reflexivity | lia].
Qed.

Lemma check_timeout_stays_failed_witness :
  let limiter := ResourceLimiter.new None (Some 50) in
  let w := mkWorld 50000001 0 0 0 [] in
  let w2 := mkWorld 90000000 0 0 0 [] in
  (ResourceLimiter.check_timeout limiter 0 w = Done (Err "Execution timeout") w
   /\ clock_ns w <= clock_ns w2)
  /\ ResourceLimiter.check_timeout limiter 0 w2 = Done (Err "Execution timeout") w2.
Proof.
  intros limiter w w2.
  assert (clock_ns w <= clock_ns w2) as Hle by (cbn; lia).
  split; [split; [reflexivity | exact Hle]|].
  apply (check_timeout_stays_failed None (Some 50) 0 w w w2 "Execution timeout");
    [reflexivity | exact Hle].
Defined.

(** ** Sessions and stateless calls side by side *)

(** A session's [run_code] reads neither its [args] nor its limits. *)
Theorem run_code_ignores_args_and_limits
        (E : Engine) (s : ExecutionSession.t) (entrypoint : string)
        (args1 args2 : list string) (limits1 limits2 : option Limits.t) (w : World) :
  ExecutionSession.run_code E s entrypoint args1 limits1 w
  = ExecutionSession.run_code E s entrypoint args2 limits2 w.
Proof.
  unfold ExecutionSession.run_code.
  destruct (ok_or_else _ _) as [bytes|e]; [|reflexivity].
  destruct (Utf8.from_utf8 bytes) as [code|e]; [|reflexivity].
  apply execute_code_limits_irrelevant.
Qed.



